(** * python-syntax-errors: the two "punctuation" snippets

    A shallow embedding of

    - [punctuation_1_fixed.py]: the crawl-job configuration literal [payload];
    - [punctuation_4_fixed.py]: the routine [extract_product_data], which
      fetches every URL of [product_urls], parses the page and appends a
      [{"title", "price"}] record to [product_data].

    Python dictionaries with string keys and string values are [gmap string
    string]; the nested, heterogeneous literal [payload] is a small JSON-like
    value whose dictionaries keep the order in which the literal lists their
    keys.  The routine runs in a state-and-exception monad over the module's
    globals, which are three distinct objects: [product_urls] holds strings,
    [product_data] holds records, [headers] is a dictionary.  The HTTP client
    and the HTML parser are external libraries and enter through the class
    [Libs]; neither changes the arguments it is called with. *)

From Stdlib Require Import ZArith Ascii String.
From stdpp Require Import gmap strings list fin_maps.

Set Warnings "-register-all".

(** ** Part 1: the job configuration literal *)

Module Config.

(** Values a Python literal made of strings, integers, lists and dictionaries
    can denote. *)
Inductive pyval : Type :=
| PStr (s : string)
| PInt (z : Z)
| PList (items : list pyval)
| PDict (entries : list (string * pyval)).

(** [d[k]] on the entries of a dictionary literal. *)
Fixpoint dict_get (k : string) (entries : list (string * pyval)) : option pyval :=
  match entries with
  | [] => None
  | (k', v) :: rest => if String.eqb k k' then Some v else dict_get k rest
  end.

(** [v[k1][k2]...]: follow a path of keys through nested dictionaries. *)
Fixpoint get_path (path : list string) (v : pyval) : option pyval :=
  match path with
  | [] => Some v
  | k :: path' =>
      match v with
      | PDict entries =>
          match dict_get k entries with
          | Some v' => get_path path' v'
          | None => None
          end
      | _ => None
      end
  end.

(** The keys of a dictionary literal, in the order written. *)
Definition keys (entries : list (string * pyval)) : list string := map fst entries.

(** Structure descriptions such as [{ url: string, filters: { ... } }]. *)
Inductive shape : Type :=
| TStr
| TInt
| TList (elem : shape)
| TObj (fields : list (string * shape)).

Fixpoint field_shape (k : string) (fields : list (string * shape)) : option shape :=
  match fields with
  | [] => None
  | (k', t) :: rest => if String.eqb k k' then Some t else field_shape k rest
  end.

(** [has_shape v t]: the value [v] is an instance of the structure [t].  A
    dictionary is an instance of an object structure when it has exactly the
    named fields, each holding an instance of the field's structure. *)
Fixpoint has_shape (v : pyval) (t : shape) : bool :=
  match v, t with
  | PStr _, TStr => true
  | PInt _, TInt => true
  | PList items, TList elem => forallb (fun x => has_shape x elem) items
  | PDict entries, TObj fields =>
      forallb (fun kt : string * shape => bool_decide (kt.1 ∈ map fst entries)) fields
      && forallb (fun kv : string * pyval =>
                    match field_shape kv.1 fields with
                    | Some t' => has_shape kv.2 t'
                    | None => false
                    end) entries
  | _, _ => false
  end.

(** The literal of [punctuation_1_fixed.py], key for key. *)
Definition payload : pyval :=
  PDict [
    ("url", PStr "https://www.amazon.com/");
    ("filters", PDict [
        ("crawl", PList [PStr ".*"]);
        ("process", PList [PStr ".*"]);
        ("max_depth", PInt 1)
    ]);
    ("scrape_params", PDict [
        ("user_agent_type", PStr "desktop")
    ]);
    ("output", PDict [
        ("type_", PStr "sitemap")
    ])
  ].

(** The structure with the given name for the single field of the output
    section. *)
Definition job_shape (output_field : string) : shape :=
  TObj [
    ("url", TStr);
    ("filters", TObj [("crawl", TList TStr); ("process", TList TStr); ("max_depth", TInt)]);
    ("scrape_params", TObj [("user_agent_type", TStr)]);
    ("output", TObj [(output_field, TStr)])
  ].

(** The structure as the specification words it: the output section has a
    field [type]. *)
Definition spec_job_shape : shape := job_shape "type".

(** The structure the literal has: the output section's field is [type_]. *)
Definition code_job_shape : shape := job_shape "type_".

End Config.

(** ** Part 2: the parsed document, as the routine queries it *)

Module Soup.

(** A parsed page is the list of its top-level nodes.  An element carries its
    tag name, its attribute dictionary and its children; character data is a
    leaf.  Comments, declarations and the like, which neither [find] with a
    tag name nor [text] looks at, are left out. *)
Inductive node : Type :=
| Text (s : string)
| Tag (name : string) (attrs : gmap string string) (children : list node).

(** The filter of [find(name, attrs)]: an element passes when its tag name is
    [name] (any tag when no name is given) and it carries every attribute of
    [attrs] with exactly the given value.  Character data never passes. *)
Definition matches (name : option string) (attrs : gmap string string) (n : node) : bool :=
  match n with
  | Text _ => false
  | Tag nm own _ =>
      match name with
      | Some wanted => String.eqb nm wanted
      | None => true
      end
      && bool_decide (map_Forall (fun k v => own !! k = Some v) attrs)
  end.

(** [find] below a node, the node itself first, then its children from left
    to right. *)
Fixpoint find_from (name : option string) (attrs : gmap string string) (n : node)
  : option node :=
  if matches name attrs n then Some n
  else
    match n with
    | Text _ => None
    | Tag _ _ children =>
        (fix among (ns : list node) : option node :=
           match ns with
           | [] => None
           | k :: ns' =>
               match find_from name attrs k with
               | Some e => Some e
               | None => among ns'
               end
           end) children
    end.

(** [soup.find(name, attrs)]: the first passing element of the page, or
    [None]. *)
Fixpoint find (name : option string) (attrs : gmap string string) (soup : list node)
  : option node :=
  match soup with
  | [] => None
  | k :: soup' =>
      match find_from name attrs k with
      | Some e => Some e
      | None => find name attrs soup'
      end
  end.

(** [element.text]: all character data below the element, concatenated. *)
Fixpoint text (n : node) : string :=
  match n with
  | Text s => s
  | Tag _ _ children =>
      (fix join (ns : list node) : string :=
         match ns with
         | [] => EmptyString
         | k :: ns' => text k +:+ join ns'
         end) children
  end.

(** Document order: a node, then the nodes below it, left to right. *)
Fixpoint preorder (n : node) : list node :=
  n :: match n with
       | Text _ => []
       | Tag _ _ children =>
           (fix below (ns : list node) : list node :=
              match ns with
              | [] => []
              | k :: ns' => preorder k ++ below ns'
              end) children
       end.

(** The nodes of a page in document order. *)
Fixpoint descendants (soup : list node) : list node :=
  match soup with
  | [] => []
  | k :: soup' => preorder k ++ descendants soup'
  end.

(** The first node of a list that passes a test. *)
Fixpoint first_match (test : node -> bool) (ns : list node) : option node :=
  match ns with
  | [] => None
  | n :: ns' => if test n then Some n else first_match test ns'
  end.

End Soup.

(** ** Part 3: the extraction routine *)

(** What a Python call can raise here: [None.text] is an [AttributeError];
    the HTTP client raises its own exceptions (connection errors, timeouts,
    invalid URLs), kept by their message. *)
Inductive exn : Type :=
| AttributeError
| RequestException (msg : string).

(** A call either returns a value or raises. *)
Inductive result (A : Type) : Type :=
| Ok (a : A)
| Raise (e : exn).
Arguments Ok {A} a.
Arguments Raise {A} e.

(** The two external libraries the routine calls.

    - [requests_get url headers] is [requests.get(url, headers=headers)]
      followed by [.content]: it depends on, and may change, the state of the
      network, and returns the body of the response or raises;
    - [html_parser body] is [BeautifulSoup(body, 'html.parser')]. *)
Class Libs : Type := {
  net : Type;
  requests_get : string -> gmap string string -> net -> net * result string;
  html_parser : string -> list Soup.node
}.

(** The globals the routine refers to, the network, and the list of the GET
    requests issued so far (URL and header dictionary of each). *)
Record world {L : Libs} : Type := World {
  product_urls : list string;
  headers : gmap string string;
  product_data : list (gmap string string);
  network : net;
  requests_sent : list (string * gmap string string)
}.
Arguments World {L} _ _ _ _ _.

Section Routine.
Context {L : Libs}.

(** Computations over the world that may raise; the world a raising
    computation leaves behind is kept. *)
Definition M (A : Type) : Type := world -> world * result A.

Definition ret {A : Type} (a : A) : M A := fun w => (w, Ok a).

Definition raise {A : Type} (e : exn) : M A := fun w => (w, Raise e).

Definition bind {A B : Type} (m : M A) (f : A -> M B) : M B :=
  fun w =>
    match m w with
    | (w', Ok a) => f a w'
    | (w', Raise e) => (w', Raise e)
    end.

Definition read {A : Type} (global : world -> A) : M A := fun w => (w, Ok (global w)).

End Routine.

Notation "x <- m ;; k" := (bind m (fun x => k))
  (at level 100, m at next level, right associativity).
Notation "m ;;; k" := (bind m (fun _ => k))
  (at level 100, right associativity).

Section Routine.
Context {L : Libs}.

(** [requests.get(url, headers=hs).content]: one GET request goes out. *)
Definition http_get (url : string) (hs : gmap string string) : M string :=
  fun w =>
    let answer := requests_get url hs (network w) in
    (World (product_urls w) (headers w) (product_data w) answer.1
           (requests_sent w ++ [(url, hs)]),
     answer.2).

(** [found.text] where [found] is what [find] returned: attribute access on
    [None] raises. *)
Definition text_of (found : option Soup.node) : M string :=
  match found with
  | Some element => ret (Soup.text element)
  | None => raise AttributeError
  end.

(** [product_data.append(record)]. *)
Definition append_product_data (record : gmap string string) : M unit :=
  fun w =>
    (World (product_urls w) (headers w) (product_data w ++ [record]) (network w)
           (requests_sent w),
     Ok tt).

(** The attribute filter [{"itemprop": "price"}]. *)
Definition itemprop_price : gmap string string := {[ "itemprop" := "price" ]}.

(** The dictionary display [{"title": title, "price": price}]. *)
Definition record_of (title price : string) : gmap string string :=
  <["price" := price]> (<["title" := title]> ∅).

(** The body of the loop, for one [url]. *)
Definition loop_body (url : string) : M unit :=
  hs <- read headers ;;
  content <- http_get url hs ;;
  let soup := html_parser content in
  title <- text_of (Soup.find (Some "h1") ∅ soup) ;;
  price <- text_of (Soup.find (Some "span") itemprop_price soup) ;;
  append_product_data (record_of title price).

(** [for x in xs: body(x)]: stops at the first iteration that raises. *)
Fixpoint for_each (body : string -> M unit) (xs : list string) : M unit :=
  match xs with
  | [] => ret tt
  | x :: xs' => body x ;;; for_each body xs'
  end.

(** [extract_product_data()]. *)
Definition extract_product_data : M unit :=
  urls <- read product_urls ;;
  for_each loop_body urls.

(** *** The network and the pages, seen from outside the routine *)

(** What the network answers to GET requests for [urls], one after the other,
    from state [n]. *)
Fixpoint responses (hs : gmap string string) (urls : list string) (n : net)
  : list (result string) :=
  match urls with
  | [] => []
  | url :: urls' =>
      let answer := requests_get url hs n in
      answer.2 :: responses hs urls' answer.1
  end.

(** The state of the network after those requests. *)
Fixpoint net_after (hs : gmap string string) (urls : list string) (n : net) : net :=
  match urls with
  | [] => n
  | url :: urls' => net_after hs urls' (requests_get url hs n).1
  end.

(** The record a page gives: its first [h1] and its first [span] with
    [itemprop="price"] must both exist. *)
Definition page_record (body : string) : option (gmap string string) :=
  let soup := html_parser body in
  match Soup.find (Some "h1") ∅ soup, Soup.find (Some "span") itemprop_price soup with
  | Some heading, Some tagged => Some (record_of (Soup.text heading) (Soup.text tagged))
  | _, _ => None
  end.

(** The records a sequence of responses gives, up to the first response that
    is an error or a page without a record. *)
Fixpoint records_of (answers : list (result string)) : list (gmap string string) :=
  match answers with
  | Ok body :: answers' =>
      match page_record body with
      | Some record => record :: records_of answers'
      | None => []
      end
  | _ => []
  end.

(** How the loop over those responses ends. *)
Fixpoint outcome_of (answers : list (result string)) : result unit :=
  match answers with
  | [] => Ok tt
  | Ok body :: answers' =>
      match page_record body with
      | Some _ => outcome_of answers'
      | None => Raise AttributeError
      end
  | Raise e :: _ => Raise e
  end.

(** How many of the requests go out before the loop ends. *)
Fixpoint issued (answers : list (result string)) : nat :=
  match answers with
  | [] => 0
  | Ok body :: answers' =>
      match page_record body with
      | Some _ => S (issued answers')
      | None => 1
      end
  | Raise _ :: _ => 1
  end.

(** The GET requests for [urls], as they are logged. *)
Definition gets (hs : gmap string string) (urls : list string)
  : list (string * gmap string string) :=
  map (fun url => (url, hs)) urls.

(** A record with both fields present. *)
Definition populated (record : gmap string string) : Prop :=
  exists title price : string,
    record !! "title" = Some title /\ record !! "price" = Some price.

(** The price as the specification words it: the text of the first element of
    any tag with [itemprop="price"]. *)
Definition spec_price (soup : list Soup.node) : option string :=
  Soup.text <$> Soup.find None itemprop_price soup.

(** The price the routine reads from a page. *)
Definition code_price (soup : list Soup.node) : option string :=
  Soup.text <$> Soup.find (Some "span") itemprop_price soup.

End Routine.

(** ** Part 4: a test double for the two libraries *)

(** A reference reader for the well-nested markup of the test pages: start
    tags with double-quoted attribute values, end tags and character data.
    It stands in for the external parser in the closed examples below; every
    theorem on the routine is stated for an arbitrary parser. *)
Module MiniHtml.

Inductive token : Type :=
| TStart (name : string) (attrs : gmap string string)
| TEnd (name : string)
| TData (s : string).

Definition str (reversed : list ascii) : string :=
  string_of_list_ascii (rev reversed).

(** The double-quote character, code 34. *)
Definition dquote : ascii := ascii_of_nat 34.

Inductive attr_state : Type :=
| Between
| InKey (key : list ascii)
| AfterEq (key : list ascii)
| InValue (key value : list ascii).

(** The attributes of a start tag, read after the tag name; of two values
    for one key the later one is kept. *)
Fixpoint read_attrs (st : attr_state) (cs : list ascii) : gmap string string :=
  match cs with
  | [] => ∅
  | c :: cs' =>
      match st with
      | Between =>
          if Ascii.eqb c " " then read_attrs Between cs' else read_attrs (InKey [c]) cs'
      | InKey key =>
          if Ascii.eqb c "=" then read_attrs (AfterEq key) cs'
          else if Ascii.eqb c " " then read_attrs Between cs'
          else read_attrs (InKey (c :: key)) cs'
      | AfterEq key =>
          if Ascii.eqb c dquote then read_attrs (InValue key []) cs'
          else read_attrs Between cs'
      | InValue key value =>
          if Ascii.eqb c dquote then
            let later := read_attrs Between cs' in
            match later !! str key with
            | Some _ => later
            | None => <[str key := str value]> later
            end
          else read_attrs (InValue key (c :: value)) cs'
      end
  end.

(** Split the inside of a start tag at its first blank. *)
Fixpoint tag_name (name : list ascii) (cs : list ascii) : list ascii * list ascii :=
  match cs with
  | [] => (name, [])
  | c :: cs' => if Ascii.eqb c " " then (name, cs') else tag_name (c :: name) cs'
  end.

Definition tag_token (inside : list ascii) : token :=
  match inside with
  | c :: name =>
      if Ascii.eqb c "/" then TEnd (string_of_list_ascii name)
      else
        let split := tag_name [] inside in
        TStart (str split.1) (read_attrs Between split.2)
  | [] => TData "<>"
  end.

Definition data_token (reversed : list ascii) : list token :=
  match reversed with
  | [] => []
  | _ => [TData (str reversed)]
  end.

(** Cut the text into tokens; [pending] holds, reversed, the characters of
    the token being read. *)
Fixpoint tokens (in_tag : bool) (pending : list ascii) (cs : list ascii) : list token :=
  match cs with
  | [] => if in_tag then [] else data_token pending
  | c :: cs' =>
      if in_tag then
        if Ascii.eqb c ">" then tag_token (rev pending) :: tokens false [] cs'
        else tokens true (c :: pending) cs'
      else
        if Ascii.eqb c "<" then data_token pending ++ tokens true [] cs'
        else tokens false (c :: pending) cs'
  end.

(** An element whose end tag has not been read yet: its name, attributes,
    and the nodes read before it at its parent's level, reversed. *)
Definition frame : Type := string * gmap string string * list Soup.node.

Fixpoint close_all (open : list frame) (level : list Soup.node) : list Soup.node :=
  match open with
  | [] => rev level
  | (name, attrs, before) :: open' =>
      close_all open' (Soup.Tag name attrs (rev level) :: before)
  end.

(** Build the tree; [level] holds, reversed, the nodes read so far at the
    current level.  An end tag closes the innermost open element. *)
Fixpoint build (open : list frame) (level : list Soup.node) (ts : list token)
  : list Soup.node :=
  match ts with
  | [] => close_all open level
  | TData s :: ts' => build open (Soup.Text s :: level) ts'
  | TStart name attrs :: ts' => build ((name, attrs, level) :: open) [] ts'
  | TEnd _ :: ts' =>
      match open with
      | (name, attrs, before) :: open' =>
          build open' (Soup.Tag name attrs (rev level) :: before) ts'
      | [] => build [] level ts'
      end
  end.

Definition parse (body : string) : list Soup.node :=
  build [] [] (tokens false [] (list_ascii_of_string body)).

End MiniHtml.

(** A canned site: the pages it serves, by URL.  The state of its network is
    the number of requests served so far; an unknown URL makes the client
    raise. *)
Fixpoint page_of (pages : list (string * string)) (url : string) : result string :=
  match pages with
  | [] => Raise (RequestException "connection refused")
  | (url', body) :: pages' =>
      if String.eqb url url' then Ok body else page_of pages' url
  end.

Definition canned (pages : list (string * string)) : Libs := {|
  net := nat;
  requests_get url _ served := (S served, page_of pages url);
  html_parser := MiniHtml.parse
|}.

(** A world with the given URL list and accumulator, one header and a
    network that has served nothing yet. *)
Definition start (pages : list (string * string)) (urls : list string)
    (data : list (gmap string string)) : @world (canned pages) :=
  @World (canned pages) urls {[ "User-Agent" := "test" ]} data 0 [].

(** The pages of the examples. *)
Definition quoted (s : string) : string :=
  String MiniHtml.dquote s +:+ String MiniHtml.dquote EmptyString.

Definition example_url : string := "http://example.test/a".

Definition widget_body : string :=
  "<h1>Widget</h1><span itemprop=" +:+ quoted "price" +:+ ">$9.99</span>".

(** The tree of [widget_body]. *)
Definition widget_fragment : list Soup.node :=
  [Soup.Tag "h1" ∅ [Soup.Text "Widget"];
   Soup.Tag "span" itemprop_price [Soup.Text "$9.99"]].

(** A page whose first price-tagged element is a [div], followed by a
    price-tagged [span]. *)
Definition div_price_body : string :=
  "<h1>Widget</h1><div itemprop=" +:+ quoted "price" +:+ ">$1.00</div>"
  +:+ "<span itemprop=" +:+ quoted "price" +:+ ">$2.00</span>".

(** A page with an empty heading. *)
Definition empty_heading_body : string :=
  "<h1></h1><span itemprop=" +:+ quoted "price" +:+ ">$5</span>".

(** A page without a heading. *)
Definition no_heading_body : string :=
  "<p>Widget</p><span itemprop=" +:+ quoted "price" +:+ ">$5</span>".

Definition div_url : string := "http://example.test/div".
Definition empty_url : string := "http://example.test/empty".
Definition bare_url : string := "http://example.test/bare".

(** A small site with those pages. *)
Definition shop : list (string * string) :=
  [(example_url, widget_body);
   (div_url, div_price_body);
   (empty_url, empty_heading_body);
   (bare_url, no_heading_body)].

(** A record already in the accumulator before the runs of the examples. *)
Definition old_record : gmap string string := record_of "Gadget" "$1.50".

(** A page whose only price-tagged element is a [div]. *)
Definition div_only_body : string :=
  "<h1>Lamp</h1><div itemprop=" +:+ quoted "price" +:+ ">$7.00</div>".

Definition div_only_url : string := "http://example.test/div-only".

(** A URL no page of the sites answers to. *)
Definition gone_url : string := "http://example.test/gone".

(** A second site, with the page above beside two good ones. *)
Definition outlet : list (string * string) :=
  [(example_url, widget_body);
   (empty_url, empty_heading_body);
   (div_only_url, div_only_body)].

(** The header dictionary of the example worlds. *)
Definition test_headers : gmap string string := {[ "User-Agent" := "test" ]}.

(** ** Theorems on the configuration literal *)

Example payload_url :
  Config.get_path ["url"] Config.payload = Some (Config.PStr "https://www.amazon.com/").
Proof. reflexivity. Qed.

Example payload_max_depth :
  Config.get_path ["filters"; "max_depth"] Config.payload = Some (Config.PInt 1).
Proof. reflexivity. Qed.

Example payload_top_level_keys :
  match Config.payload with
  | Config.PDict entries => Config.keys entries
  | _ => []
  end = ["url"; "filters"; "scrape_params"; "output"].
Proof. reflexivity. Qed.

(** C1, as stated, fails: [payload] is not an instance of the structure with
    an output field named [type], and looking up [output.type] finds no
    value. *)
Lemma C1_payload_has_no_output_type :
  Config.has_shape Config.payload Config.spec_job_shape = false
  /\ Config.get_path ["output"; "type"] Config.payload = None.
Proof. split; vm_compute; reflexivity. Qed.

(** C1, amended: [payload] is an instance of
    [{ url: string, filters: { crawl: [string], process: [string], max_depth:
    int }, scrape_params: { user_agent_type: string }, output: { type_: string
    } }]; its output section has exactly one field, named [type_], which holds
    the string "sitemap". *)
Theorem C1_payload_shape :
  Config.has_shape Config.payload Config.code_job_shape = true
  /\ Config.get_path ["output"; "type_"] Config.payload = Some (Config.PStr "sitemap")
  /\ (exists entries,
        Config.get_path ["output"] Config.payload = Some (Config.PDict entries)
        /\ Config.keys entries = ["type_"]).
Proof.
  split; [vm_compute; reflexivity|].
  split; [reflexivity|].
  eexists. split; reflexivity.
Qed.

(** ** Facts on documents *)

Section SoupFacts.
Import Soup.

(** Induction on nodes, with the hypothesis for every child. *)
Lemma node_children_ind (P : node -> Prop) :
  (forall s, P (Text s)) ->
  (forall name attrs children, Forall P children -> P (Tag name attrs children)) ->
  forall n, P n.
Proof.
  intros Htext Htag. fix IH 1. intros [s | name attrs children].
  - apply Htext.
  - apply Htag. induction children as [| k ks IHks]; constructor; [apply IH | exact IHks].
Qed.

Lemma first_match_app test (l1 l2 : list node) :
  first_match test (l1 ++ l2) =
    match first_match test l1 with
    | Some e => Some e
    | None => first_match test l2
    end.
Proof.
  induction l1 as [| n l1 IH]; simpl; [reflexivity |].
  destruct (test n); [reflexivity | exact IH].
Qed.

Lemma first_match_None test (l : list node) :
  first_match test l = None <-> Forall (fun n => test n = false) l.
Proof.
  induction l as [| n l IH]; simpl.
  - split; [constructor | reflexivity].
  - destruct (test n) eqn:Hn.
    + split; [discriminate |]. intros H. inversion H; congruence.
    + rewrite IH. split; [by constructor |]. by inversion 1.
Qed.

(** The first match splits the list: nothing before it passes. *)
Lemma first_match_Some test (l : list node) e :
  first_match test l = Some e <->
  exists before after,
    l = before ++ e :: after
    /\ Forall (fun n => test n = false) before
    /\ test e = true.
Proof.
  split.
  - induction l as [| n l IH]; simpl; [discriminate |].
    destruct (test n) eqn:Hn.
    + intros [= ->]. exists [], l. by repeat split.
    + intros H. destruct (IH H) as (before & after & -> & Hbefore & He).
      exists (n :: before), after. repeat split; [by constructor | done].
  - intros (before & after & -> & Hbefore & He).
    rewrite first_match_app.
    apply first_match_None in Hbefore. rewrite Hbefore. simpl. by rewrite He.
Qed.

(** [find] below a node is the first match in document order. *)
Lemma find_from_preorder name attrs n :
  find_from name attrs n = first_match (matches name attrs) (preorder n).
Proof.
  induction n as [s | nm own children IH] using node_children_ind.
  - reflexivity.
  - simpl. destruct (_ && _); [reflexivity |].
    induction IH as [| k ks Hk _ IHks]; [reflexivity |].
    rewrite first_match_app, <- Hk.
    destruct (find_from name attrs k); [reflexivity | exact IHks].
Qed.

(** [soup.find] is the first match of the page in document order. *)
Lemma find_first_match name attrs soup :
  find name attrs soup = first_match (matches name attrs) (descendants soup).
Proof.
  induction soup as [| k soup IH]; [reflexivity |].
  simpl. rewrite first_match_app, <- find_from_preorder.
  destruct (find_from name attrs k); [reflexivity | exact IH].
Qed.

(** What passing the filter of the price lookup means. *)
Lemma matches_span_price n :
  matches (Some "span") itemprop_price n = true <->
  exists attrs children,
    n = Tag "span" attrs children /\ attrs !! "itemprop" = Some "price".
Proof.
  destruct n as [s | nm own children]; simpl.
  - split; [discriminate | intros (? & ? & ? & _); discriminate].
  - rewrite andb_true_iff, String.eqb_eq, bool_decide_eq_true.
    unfold itemprop_price. rewrite map_Forall_singleton.
    split.
    + intros [-> Hown]. eauto.
    + intros (attrs & ks & [= -> -> _] & Hown). done.
Qed.

(** What passing the filter of the heading lookup means. *)
Lemma matches_h1 n :
  matches (Some "h1") ∅ n = true <->
  exists attrs children, n = Tag "h1" attrs children.
Proof.
  destruct n as [s | nm own children]; simpl.
  - split; [discriminate | intros (? & ? & ?); discriminate].
  - rewrite andb_true_iff, String.eqb_eq, bool_decide_eq_true.
    split.
    + intros [-> _]. eauto.
    + intros (attrs & ks & [= -> _ _]). split; [done | apply map_Forall_empty].
Qed.

End SoupFacts.

(** ** Facts on the routine *)

Section RoutineFacts.
Context {L : Libs}.

Implicit Types (w : world) (hs : gmap string string) (urls : list string).
Implicit Types (answers : list (result string)) (pages : list string).

(** One iteration, by what the network answers and what the page holds. *)
Lemma loop_body_run url w :
  loop_body url w =
    let answer := requests_get url (headers w) (network w) in
    let sent := requests_sent w ++ [(url, headers w)] in
    match answer.2 with
    | Raise e =>
        (World (product_urls w) (headers w) (product_data w) answer.1 sent, Raise e)
    | Ok body =>
        match page_record body with
        | Some record =>
            (World (product_urls w) (headers w) (product_data w ++ [record]) answer.1 sent,
             Ok tt)
        | None =>
            (World (product_urls w) (headers w) (product_data w) answer.1 sent,
             Raise AttributeError)
        end
    end.
Proof.
  unfold loop_body, bind, read, http_get, page_record. simpl.
  destruct (requests_get url (headers w) (network w)) as [n' [body | e]]; simpl; [| reflexivity].
  destruct (Soup.find (Some "h1") ∅ (html_parser body)) as [heading |]; simpl; [| reflexivity].
  destruct (Soup.find (Some "span") itemprop_price (html_parser body)) as [tagged |];
    reflexivity.
Qed.

(** The whole loop, by the responses of the network: the records of the
    responses are appended, the requests up to the end of the loop are sent,
    and nothing else changes. *)
Lemma for_each_run urls w :
  for_each loop_body urls w =
    let answers := responses (headers w) urls (network w) in
    let served := take (issued answers) urls in
    (World (product_urls w) (headers w)
           (product_data w ++ records_of answers)
           (net_after (headers w) served (network w))
           (requests_sent w ++ gets (headers w) served),
     outcome_of answers).
Proof.
  revert w. induction urls as [| url urls IH]; intros w.
  - simpl. unfold ret, gets. simpl. rewrite !app_nil_r. by destruct w.
  - simpl. unfold bind. rewrite loop_body_run. simpl.
    destruct (requests_get url (headers w) (network w)) as [n' [body | e]] eqn:Hget; simpl.
    + destruct (page_record body) as [record |]; simpl; rewrite ?Hget; simpl.
      * rewrite IH. simpl. unfold gets. by rewrite <- !app_assoc.
      * by rewrite app_nil_r.
    + by rewrite Hget, app_nil_r.
Qed.

Lemma extract_product_data_run w :
  extract_product_data w =
    let answers := responses (headers w) (product_urls w) (network w) in
    let served := take (issued answers) (product_urls w) in
    (World (product_urls w) (headers w)
           (product_data w ++ records_of answers)
           (net_after (headers w) served (network w))
           (requests_sent w ++ gets (headers w) served),
     outcome_of answers).
Proof. unfold extract_product_data, bind, read. apply for_each_run. Qed.

Lemma responses_app hs urls1 urls2 (n : net) :
  responses hs (urls1 ++ urls2) n =
    responses hs urls1 n ++ responses hs urls2 (net_after hs urls1 n).
Proof.
  revert n. induction urls1 as [| url urls1 IH]; intros n; simpl; [reflexivity |].
  by rewrite IH.
Qed.

Lemma responses_length hs urls (n : net) : length (responses hs urls n) = length urls.
Proof. revert n. induction urls as [| url urls IH]; intros n; simpl; [done | by rewrite IH]. Qed.

(** Every record the responses give is the record of the page at its
    position. *)
Lemma records_of_lookup answers i record :
  records_of answers !! i = Some record ->
  exists body, answers !! i = Some (Ok body) /\ page_record body = Some record.
Proof.
  revert i. induction answers as [| [body | e] answers IH]; intros i; simpl; try done.
  destruct (page_record body) as [r |] eqn:Hr; [| done].
  destruct i as [| i]; simpl.
  - intros [= ->]. eauto.
  - apply IH.
Qed.

(** Good pages followed by anything: the records of the good pages come
    first. *)
Lemma good_pages_then pages records answers :
  Forall2 (fun body record => page_record body = Some record) pages records ->
  records_of ((Ok <$> pages) ++ answers) = records ++ records_of answers
  /\ outcome_of ((Ok <$> pages) ++ answers) = outcome_of answers
  /\ issued ((Ok <$> pages) ++ answers) = length pages + issued answers.
Proof.
  induction 1 as [| body record pages records Hrec _ (IH1 & IH2 & IH3)]; [done |].
  rewrite fmap_cons. simpl. rewrite Hrec, IH1, IH2, IH3. done.
Qed.

Lemma page_record_populated body record :
  page_record body = Some record -> populated record.
Proof.
  unfold page_record.
  destruct (Soup.find (Some "h1") ∅ _) as [heading |]; [| done].
  destruct (Soup.find (Some "span") itemprop_price _) as [tagged |]; [| done].
  intros [= <-]. exists (Soup.text heading), (Soup.text tagged).
  unfold record_of. split; by simplify_map_eq.
Qed.

Lemma records_of_populated answers : Forall populated (records_of answers).
Proof.
  induction answers as [| [body | e] answers IH]; simpl; try by constructor.
  destruct (page_record body) as [record |] eqn:Hr; [| by constructor].
  constructor; [by eapply page_record_populated | exact IH].
Qed.

(** A loop that ends normally has sent every request. *)
Lemma outcome_Ok_issued answers :
  outcome_of answers = Ok tt -> issued answers = length answers.
Proof.
  induction answers as [| [body | e] answers IH]; simpl; [done | | done].
  destruct (page_record body); [| done]. intros H. by rewrite IH.
Qed.

(** A loop that ends normally saw only pages with a record, and kept one
    record per page. *)
Lemma outcome_Ok_pages answers :
  outcome_of answers = Ok tt ->
  exists pages,
    answers = Ok <$> pages
    /\ Forall (fun body => is_Some (page_record body)) pages
    /\ length (records_of answers) = length answers.
Proof.
  induction answers as [| [body | e] answers IH]; simpl; [| | done].
  - intros _. exists []. by repeat split.
  - destruct (page_record body) as [record |] eqn:Hrecord; [| done].
    intros Hok. destruct (IH Hok) as (pages & -> & Hgood & Hlen).
    exists (body :: pages). repeat split.
    + constructor; [by rewrite Hrecord | done].
    + simpl. by rewrite Hlen.
Qed.

(** A loop that raises stops at the response after its last record: that
    response is the exception raised, or a page without a record. *)
Lemma outcome_Raise_at answers e :
  outcome_of answers = Raise e ->
  issued answers = S (length (records_of answers))
  /\ (answers !! length (records_of answers) = Some (Raise e)
      \/ exists body,
           answers !! length (records_of answers) = Some (Ok body)
           /\ page_record body = None
           /\ e = AttributeError).
Proof.
  induction answers as [| [body | e'] answers IH]; simpl; [done | |].
  - destruct (page_record body) as [record |] eqn:Hrecord.
    + intros Hraise. destruct (IH Hraise) as [Hissued Hat]. simpl.
      by rewrite Hissued.
    + intros [= <-]. split; [done |]. right. by exists body.
  - intros [= ->]. split; [done |]. by left.
Qed.

End RoutineFacts.

(** ** The claims on the routine *)

Section Claims.
Context {L : Libs}.

Implicit Types (w : world) (hs : gmap string string) (urls : list string).
Implicit Types (answers : list (result string)) (pages : list string).

Lemma good_pages_records pages :
  Forall (fun body => is_Some (page_record body)) pages ->
  exists records,
    Forall2 (fun body record => page_record body = Some record) pages records.
Proof.
  induction 1 as [| body pages [record Hrec] _ [records IH]].
  - exists []. constructor.
  - exists (record :: records). by constructor.
Qed.

(** A run whose first iterations all find their page and both elements:
    their records are appended, and the run goes on with the responses that
    follow. *)
Lemma run_after_good_pages w before urls pages answers :
  product_urls w = before ++ urls ->
  responses (headers w) before (network w) = Ok <$> pages ->
  Forall (fun body => is_Some (page_record body)) pages ->
  responses (headers w) urls (net_after (headers w) before (network w)) = answers ->
  exists records,
    Forall2 (fun body record => page_record body = Some record) pages records
    /\ length records = length before
    /\ product_data (extract_product_data w).1
       = product_data w ++ records ++ records_of answers
    /\ requests_sent (extract_product_data w).1
       = requests_sent w
         ++ gets (headers w) (before ++ take (issued answers) urls)
    /\ (extract_product_data w).2 = outcome_of answers.
Proof.
  intros Hurls Hbefore Hgood Hanswers.
  destruct (good_pages_records pages Hgood) as [records Hrecords].
  destruct (good_pages_then pages records answers Hrecords) as (Hr & Ho & Hi).
  assert (Hlen : length pages = length before).
  { rewrite <- (responses_length (headers w) before (network w)), Hbefore.
    by rewrite length_fmap. }
  exists records. split; [exact Hrecords |].
  split; [by rewrite <- (Forall2_length _ _ _ Hrecords) |].
  rewrite extract_product_data_run. simpl.
  rewrite Hurls, responses_app, Hbefore, Hanswers, Hr, Ho, Hi, Hlen.
  rewrite take_app_add'; done.
Qed.

(** C9: the contents [product_data] had before the call are a prefix of its
    contents after the call, whatever the outcome of the run: every earlier
    element is still there, at its position. *)
Theorem C9_product_data_only_grows w :
  product_data w `prefix_of` product_data (extract_product_data w).1
  /\ (forall i record,
        product_data w !! i = Some record ->
        product_data (extract_product_data w).1 !! i = Some record).
Proof.
  rewrite extract_product_data_run. simpl. split.
  - by apply prefix_app_r.
  - intros i record Hi. by apply lookup_app_l_Some.
Qed.

(** C5: every record a run appends to [product_data] has a [title] and a
    [price], both strings. *)
Theorem C5_appended_records_populated w :
  Forall populated
    (drop (length (product_data w)) (product_data (extract_product_data w).1)).
Proof.
  rewrite extract_product_data_run. simpl.
  rewrite drop_app_length. apply records_of_populated.
Qed.

(** C7, amended: a run leaves [product_urls] and [headers] as they were,
    only appends to [product_data], and touches the network through its GET
    requests only, all of them carrying [headers].  A run that returns
    normally sends exactly one request per URL of [product_urls], in order,
    and appends one record per URL; a run that raises sends one request for
    each URL up to and including the one at which it raises, none for the
    URLs after it, and appends one record for each URL before it. *)
Theorem C7_effects_of_a_run w :
  product_urls (extract_product_data w).1 = product_urls w
  /\ headers (extract_product_data w).1 = headers w
  /\ exists records served,
       product_data (extract_product_data w).1 = product_data w ++ records
       /\ requests_sent (extract_product_data w).1
          = requests_sent w ++ gets (headers w) served
       /\ network (extract_product_data w).1 = net_after (headers w) served (network w)
       /\ match (extract_product_data w).2 with
          | Ok _ =>
              served = product_urls w
              /\ length records = length (product_urls w)
          | Raise _ =>
              served = take (S (length records)) (product_urls w)
              /\ length records < length (product_urls w)
          end.
Proof.
  rewrite extract_product_data_run. simpl.
  split; [done |]. split; [done |].
  set (answers := responses (headers w) (product_urls w) (network w)).
  assert (Hlen : length answers = length (product_urls w)) by apply responses_length.
  exists (records_of answers), (take (issued answers) (product_urls w)).
  split; [done |]. split; [done |]. split; [done |].
  destruct (outcome_of answers) as [[] | e] eqn:Hout.
  - destruct (outcome_Ok_pages _ Hout) as (_ & _ & _ & Hrecords).
    rewrite (outcome_Ok_issued _ Hout), Hlen, firstn_all, Hrecords. done.
  - destruct (outcome_Raise_at _ _ Hout) as [Hissued Hat]. rewrite Hissued.
    split; [done |]. rewrite <- Hlen.
    destruct Hat as [Hat | (body & Hat & _)]; by eapply lookup_lt_Some.
Qed.

(** C6: when every request is answered with a page that has both elements,
    the run completes and appends one record per URL, the record at position
    [i] being the record of the page served for the URL at position [i]. *)
Theorem C6_records_in_url_order w pages :
  responses (headers w) (product_urls w) (network w) = Ok <$> pages ->
  Forall (fun body => is_Some (page_record body)) pages ->
  exists records,
    (extract_product_data w).2 = Ok tt
    /\ product_data (extract_product_data w).1 = product_data w ++ records
    /\ length records = length (product_urls w)
    /\ (forall i url,
          product_urls w !! i = Some url ->
          exists body record,
            pages !! i = Some body
            /\ page_record body = Some record
            /\ records !! i = Some record).
Proof.
  intros Hanswers Hgood.
  destruct (run_after_good_pages w (product_urls w) [] pages [])
    as (records & Hrecords & Hlen & Hdata & _ & Hout);
    [by rewrite app_nil_r | done | done | done |].
  exists records. simpl in Hdata. rewrite app_nil_r in Hdata.
  repeat split; [done | done | done |].
  intros i url Hurl.
  destruct (lookup_lt_is_Some_2 records i) as [record Hrecord].
  { rewrite Hlen. by eapply lookup_lt_Some. }
  destruct (Forall2_lookup_r _ _ _ _ _ Hrecords Hrecord) as (body & Hbody & Hpage).
  eauto.
Qed.

(** C8: when the second of two runs in succession gets the responses the
    first run got, it appends the records of the first run once more: after
    the first run the accumulator holds its old contents followed by the
    records of the pages served, after the second run those records follow a
    second time, none removed; the two runs end the same way, and when they
    return normally there is one record per URL in each copy. *)
Theorem C8_second_run_appends_again w :
  responses (headers w) (product_urls w) (network (extract_product_data w).1)
    = responses (headers w) (product_urls w) (network w) ->
  product_data (extract_product_data w).1
    = product_data w
      ++ records_of (responses (headers w) (product_urls w) (network w))
  /\ product_data (extract_product_data (extract_product_data w).1).1
     = product_data w
       ++ records_of (responses (headers w) (product_urls w) (network w))
       ++ records_of (responses (headers w) (product_urls w) (network w))
  /\ (extract_product_data (extract_product_data w).1).2 = (extract_product_data w).2
  /\ ((extract_product_data w).2 = Ok tt ->
      length (records_of (responses (headers w) (product_urls w) (network w)))
      = length (product_urls w)).
Proof.
  intros Hsame.
  rewrite (extract_product_data_run (extract_product_data w).1).
  revert Hsame. rewrite (extract_product_data_run w). simpl. intros ->.
  split; [done |]. split; [by rewrite <- app_assoc |]. split; [done |].
  intros Hok. destruct (outcome_Ok_pages _ Hok) as (_ & _ & _ & ->).
  apply responses_length.
Qed.

(** A page without one of the two elements has no record. *)
Lemma page_record_None body :
  page_record body = None <->
  Soup.find (Some "h1") ∅ (html_parser body) = None
  \/ Soup.find (Some "span") itemprop_price (html_parser body) = None.
Proof.
  unfold page_record.
  destruct (Soup.find (Some "h1") ∅ _), (Soup.find (Some "span") itemprop_price _);
    split; try done; try (by intros [? | ?]); auto.
Qed.

(** A page with no price-tagged element of any tag has no price-tagged
    [span]. *)
Lemma no_price_element_no_span soup :
  Soup.find None itemprop_price soup = None ->
  Soup.find (Some "span") itemprop_price soup = None.
Proof.
  rewrite !find_first_match, !first_match_None.
  intros Hnone. eapply Forall_impl; [exact Hnone |].
  intros [s | nm own children]; simpl; [done |].
  intros ->. apply andb_false_r.
Qed.

(** C4: when the iterations before some URL succeed and the page fetched for
    that URL has no [h1] element, or no element with [itemprop="price"], the
    run raises [AttributeError] in the iteration of that URL: the request for
    it is the last one sent, and nothing is appended for it or for the URLs
    after it. *)
Theorem C4_missing_element_raises w before url after pages body :
  product_urls w = before ++ url :: after ->
  responses (headers w) (before ++ [url]) (network w) = (Ok <$> pages) ++ [Ok body] ->
  Forall (fun b => is_Some (page_record b)) pages ->
  Soup.find (Some "h1") ∅ (html_parser body) = None
  \/ Soup.find None itemprop_price (html_parser body) = None ->
  exists records,
    (extract_product_data w).2 = Raise AttributeError
    /\ product_data (extract_product_data w).1 = product_data w ++ records
    /\ length records = length before
    /\ requests_sent (extract_product_data w).1
       = requests_sent w ++ gets (headers w) (before ++ [url]).
Proof.
  intros Hurls Hanswers Hgood Hmissing.
  assert (Hnone : page_record body = None).
  { apply page_record_None.
    destruct Hmissing as [? | ?]; [by left | right; by apply no_price_element_no_span]. }
  rewrite responses_app in Hanswers. simpl in Hanswers.
  apply app_inj_2 in Hanswers as [Hbefore [= Hbody]]; [| done].
  destruct (run_after_good_pages w before (url :: after) pages
              (Ok body :: responses (headers w) after
                 (requests_get url (headers w)
                    (net_after (headers w) before (network w))).1))
    as (records & _ & Hlen & Hdata & Hsent & Hout); [done | done | done | |].
  { simpl. by rewrite Hbody. }
  simpl in Hdata, Hsent, Hout. rewrite Hnone in Hdata, Hsent, Hout.
  exists records. rewrite app_nil_r in Hdata. done.
Qed.

(** The dictionary display of the loop, as a map literal. *)
Lemma record_of_literal title price :
  record_of title price = {[ "title" := title; "price" := price ]}.
Proof. unfold record_of. rewrite insert_insert_ne by done. by rewrite insert_empty. Qed.

(** C3: with the single URL in [product_urls] answered by a page whose
    elements, in document order, hold [<h1>Widget</h1>] followed by [<span
    itemprop="price">$9.99</span>] with no [h1] and no price-tagged [span]
    before them, the run completes and appends exactly the record
    [{"title": "Widget", "price": "$9.99"}]. *)
Theorem C3_widget_page w url body earlier later :
  product_urls w = [url] ->
  (requests_get url (headers w) (network w)).2 = Ok body ->
  Soup.descendants (html_parser body)
    = earlier ++ Soup.descendants widget_fragment ++ later ->
  Forall (fun n => Soup.matches (Some "h1") ∅ n = false
                   /\ Soup.matches (Some "span") itemprop_price n = false) earlier ->
  (extract_product_data w).2 = Ok tt
  /\ product_data (extract_product_data w).1
     = product_data w ++ [{[ "title" := "Widget"; "price" := "$9.99" ]}].
Proof.
  intros Hurls Hbody Hdoc Hearlier.
  assert (Hrec : page_record body = Some (record_of "Widget" "$9.99")).
  { unfold page_record. rewrite !find_first_match, Hdoc.
    rewrite !first_match_app.
    assert (H1 : Soup.first_match (Soup.matches (Some "h1") ∅) earlier = None).
    { apply first_match_None. eapply Forall_impl; [exact Hearlier |]. by intros ? [? _]. }
    assert (H2 : Soup.first_match (Soup.matches (Some "span") itemprop_price) earlier = None).
    { apply first_match_None. eapply Forall_impl; [exact Hearlier |]. by intros ? [_ ?]. }
    rewrite H1, H2. reflexivity. }
  rewrite extract_product_data_run. simpl. rewrite Hurls. simpl.
  rewrite Hbody, Hrec. simpl. by rewrite record_of_literal.
Qed.

(** C10: when the iterations before some URL succeed and the page fetched for
    that URL has a first [h1] and a first price-tagged [span], one of them
    with empty text, a record is appended for that URL all the same, and the
    field of the empty element is the empty string. *)
Theorem C10_empty_text_is_recorded w before url after pages body heading tagged :
  product_urls w = before ++ url :: after ->
  responses (headers w) (before ++ [url]) (network w) = (Ok <$> pages) ++ [Ok body] ->
  Forall (fun b => is_Some (page_record b)) pages ->
  Soup.find (Some "h1") ∅ (html_parser body) = Some heading ->
  Soup.find (Some "span") itemprop_price (html_parser body) = Some tagged ->
  Soup.text heading = "" \/ Soup.text tagged = "" ->
  exists records record,
    length records = length before
    /\ (product_data w ++ records ++ [record])
         `prefix_of` product_data (extract_product_data w).1
    /\ record !! "title" = Some (Soup.text heading)
    /\ record !! "price" = Some (Soup.text tagged)
    /\ (record !! "title" = Some "" \/ record !! "price" = Some "").
Proof.
  intros Hurls Hanswers Hgood Hheading Htagged Hempty.
  assert (Hrec : page_record body
                 = Some (record_of (Soup.text heading) (Soup.text tagged))).
  { unfold page_record. by rewrite Hheading, Htagged. }
  rewrite responses_app in Hanswers. simpl in Hanswers.
  apply app_inj_2 in Hanswers as [Hbefore [= Hbody]]; [| done].
  destruct (run_after_good_pages w before (url :: after) pages
              (Ok body :: responses (headers w) after
                 (requests_get url (headers w)
                    (net_after (headers w) before (network w))).1))
    as (records & _ & Hlen & Hdata & _ & _); [done | done | done | |].
  { simpl. by rewrite Hbody. }
  simpl in Hdata. rewrite Hrec in Hdata.
  exists records, (record_of (Soup.text heading) (Soup.text tagged)).
  split; [done |]. split.
  { rewrite Hdata. eexists. rewrite <- !app_assoc. reflexivity. }
  unfold record_of.
  split; [by simplify_map_eq |]. split; [by simplify_map_eq |].
  destruct Hempty as [-> | ->]; [left | right]; by simplify_map_eq.
Qed.

(** C2, amended: the [price] of every record a run appends is the text of
    the first [span] element, in the document order of the page fetched for
    the record's URL, that carries [itemprop="price"]; price-tagged elements
    of other tags are passed over. *)
Theorem C2_price_is_first_span w i record :
  product_data (extract_product_data w).1 !! (length (product_data w) + i) = Some record ->
  exists url body earlier element later,
    product_urls w !! i = Some url
    /\ responses (headers w) (product_urls w) (network w) !! i = Some (Ok body)
    /\ Soup.descendants (html_parser body) = earlier ++ element :: later
    /\ Forall (fun n => Soup.matches (Some "span") itemprop_price n = false) earlier
    /\ (exists attrs children,
          element = Soup.Tag "span" attrs children
          /\ attrs !! "itemprop" = Some "price")
    /\ record !! "price" = Some (Soup.text element).
Proof.
  rewrite extract_product_data_run. simpl.
  rewrite lookup_app_r by lia.
  replace (length (product_data w) + i - length (product_data w)) with i by lia.
  intros Hrecord.
  destruct (records_of_lookup _ _ _ Hrecord) as (body & Hbody & Hpage).
  destruct (lookup_lt_is_Some_2 (product_urls w) i) as [url Hurl].
  { rewrite <- (responses_length (headers w) _ (network w)). by eapply lookup_lt_Some. }
  unfold page_record in Hpage.
  destruct (Soup.find (Some "h1") ∅ _) as [heading |]; [| done].
  destruct (Soup.find (Some "span") itemprop_price _) as [tagged |] eqn:Htagged; [| done].
  injection Hpage as <-.
  rewrite find_first_match in Htagged.
  apply first_match_Some in Htagged as (earlier & later & Hdoc & Hearlier & Hspan).
  apply matches_span_price in Hspan.
  exists url, body, earlier, tagged, later.
  repeat split; try done; unfold record_of; by simplify_map_eq.
Qed.

End Claims.

(** ** The claims at concrete pages *)

(** The examples run the routine against the canned site [shop]. *)

(** C3 at the page of the scenario: the body is read by the reference
    reader, and one record is appended after the one already there. *)
Lemma C3_widget_page_example :
  (extract_product_data (start shop [example_url] [old_record])).2 = Ok tt
  /\ product_data (extract_product_data (start shop [example_url] [old_record])).1
     = [old_record] ++ [{[ "title" := "Widget"; "price" := "$9.99" ]}].
Proof.
  apply (C3_widget_page (L := canned shop)
           (start shop [example_url] [old_record]) example_url widget_body [] []).
  - reflexivity.
  - vm_compute. reflexivity.
  - vm_compute. reflexivity.
  - constructor.
Defined.

(** C2, as stated, fails: on a page whose first price-tagged element is a
    [div], the first element of any tag with [itemprop="price"] holds
    "$1.00", and the routine records the text of the later [span],
    "$2.00". *)
Lemma C2_first_price_element_passed_over :
  spec_price (MiniHtml.parse div_price_body) = Some "$1.00"
  /\ code_price (MiniHtml.parse div_price_body) = Some "$2.00"
  /\ product_data (extract_product_data (start shop [div_url] [])).1
     = [{[ "title" := "Widget"; "price" := "$2.00" ]}].
Proof.
  split; [vm_compute; reflexivity |]. split; [vm_compute; reflexivity |].
  rewrite <- record_of_literal. vm_compute. reflexivity.
Qed.

(** C2, amended, at the second URL of a run over two pages. *)
Lemma C2_price_is_first_span_example :
  exists url body earlier element later,
    [example_url; div_url] !! 1 = Some url
    /\ responses (L := canned shop) {[ "User-Agent" := "test" ]} [example_url; div_url] 0 !! 1
       = Some (Ok body)
    /\ Soup.descendants (MiniHtml.parse body) = earlier ++ element :: later
    /\ Forall (fun n => Soup.matches (Some "span") itemprop_price n = false) earlier
    /\ (exists attrs children,
          element = Soup.Tag "span" attrs children
          /\ attrs !! "itemprop" = Some "price")
    /\ record_of "Widget" "$2.00" !! "price" = Some (Soup.text element).
Proof.
  apply (C2_price_is_first_span (L := canned shop)
           (start shop [example_url; div_url] []) 1 (record_of "Widget" "$2.00")).
  vm_compute. reflexivity.
Defined.

(** C4 at a run over three URLs whose second page has no heading: the run
    raises there, having appended the record of the first page only. *)
Lemma C4_missing_element_raises_example :
  exists records,
    (extract_product_data (start shop [example_url; bare_url; example_url] [])).2
      = Raise AttributeError
    /\ product_data (extract_product_data (start shop [example_url; bare_url; example_url] [])).1
       = [] ++ records
    /\ length records = length [example_url]
    /\ requests_sent (extract_product_data (start shop [example_url; bare_url; example_url] [])).1
       = [] ++ gets {[ "User-Agent" := "test" ]} ([example_url] ++ [bare_url]).
Proof.
  apply (C4_missing_element_raises (L := canned shop)
           (start shop [example_url; bare_url; example_url] [])
           [example_url] bare_url [example_url] [widget_body] no_heading_body).
  - reflexivity.
  - vm_compute. reflexivity.
  - repeat constructor. vm_compute. eexists. reflexivity.
  - left. vm_compute. reflexivity.
Defined.

(** C6 at a run over three good pages. *)
Lemma C6_records_in_url_order_example :
  exists records,
    (extract_product_data (start shop [empty_url; example_url; div_url] [old_record])).2 = Ok tt
    /\ product_data (extract_product_data (start shop [empty_url; example_url; div_url] [old_record])).1
       = [old_record] ++ records
    /\ length records = length [empty_url; example_url; div_url]
    /\ (forall i url,
          [empty_url; example_url; div_url] !! i = Some url ->
          exists body record,
            [empty_heading_body; widget_body; div_price_body] !! i = Some body
            /\ page_record (L := canned shop) body = Some record
            /\ records !! i = Some record).
Proof.
  apply (C6_records_in_url_order (L := canned shop)
           (start shop [empty_url; example_url; div_url] [old_record])
           [empty_heading_body; widget_body; div_price_body]).
  - vm_compute. reflexivity.
  - repeat constructor; vm_compute; eexists; reflexivity.
Defined.

(** C8 at two runs over the same two pages: the canned site answers the
    second run as it answered the first, and the two records appear twice. *)
Lemma C8_second_run_appends_again_example :
  product_data (extract_product_data (start shop [example_url; div_url] [old_record])).1
    = [old_record]
      ++ records_of (L := canned shop) (responses (L := canned shop) test_headers [example_url; div_url] 0)
  /\ product_data
       (extract_product_data
          (extract_product_data (start shop [example_url; div_url] [old_record])).1).1
     = [old_record]
       ++ records_of (L := canned shop) (responses (L := canned shop) test_headers [example_url; div_url] 0)
       ++ records_of (L := canned shop) (responses (L := canned shop) test_headers [example_url; div_url] 0)
  /\ (extract_product_data
        (extract_product_data (start shop [example_url; div_url] [old_record])).1).2
     = (extract_product_data (start shop [example_url; div_url] [old_record])).2
  /\ ((extract_product_data (start shop [example_url; div_url] [old_record])).2 = Ok tt ->
      length (records_of (L := canned shop) (responses (L := canned shop) test_headers [example_url; div_url] 0))
      = length [example_url; div_url]).
Proof.
  apply (C8_second_run_appends_again (L := canned shop)
           (start shop [example_url; div_url] [old_record])).
  vm_compute. reflexivity.
Defined.

(** The accumulator after those two runs, evaluated. *)
Example two_runs_over_two_pages :
  map map_to_list
    (product_data
       (extract_product_data
          (extract_product_data (start shop [example_url; div_url] [old_record])).1).1)
  = [[("title", "Gadget"); ("price", "$1.50")];
     [("title", "Widget"); ("price", "$9.99")];
     [("title", "Widget"); ("price", "$2.00")];
     [("title", "Widget"); ("price", "$9.99")];
     [("title", "Widget"); ("price", "$2.00")]].
Proof. vm_compute. reflexivity. Qed.

(** C7, as stated, fails: over three URLs whose second page has no heading
    the run sends two GET requests, not one per URL; none goes out for the
    third URL. *)
Lemma C7_raising_run_sends_fewer_requests :
  product_urls (start shop [example_url; bare_url; div_url] [])
    = [example_url; bare_url; div_url]
  /\ (extract_product_data (start shop [example_url; bare_url; div_url] [])).2
     = Raise AttributeError
  /\ requests_sent (extract_product_data (start shop [example_url; bare_url; div_url] [])).1
     = gets test_headers [example_url; bare_url]
  /\ requests_sent (extract_product_data (start shop [example_url; bare_url; div_url] [])).1
     <> gets test_headers [example_url; bare_url; div_url].
Proof.
  split; [reflexivity |]. split; [vm_compute; reflexivity |].
  split; [vm_compute; reflexivity |].
  intros Heq. apply (f_equal length) in Heq. vm_compute in Heq. discriminate.
Qed.

(** C10 at a page with an empty heading, between two other pages. *)
Lemma C10_empty_text_is_recorded_example :
  exists records record,
    length records = length [example_url]
    /\ ([] ++ records ++ [record])
         `prefix_of`
         product_data (extract_product_data (start shop [example_url; empty_url; div_url] [])).1
    /\ record !! "title" = Some (Soup.text (Soup.Tag "h1" ∅ []))
    /\ record !! "price" = Some (Soup.text (Soup.Tag "span" itemprop_price [Soup.Text "$5"]))
    /\ (record !! "title" = Some "" \/ record !! "price" = Some "").
Proof.
  apply (C10_empty_text_is_recorded (L := canned shop)
           (start shop [example_url; empty_url; div_url] [])
           [example_url] empty_url [div_url] [widget_body] empty_heading_body
           (Soup.Tag "h1" ∅ []) (Soup.Tag "span" itemprop_price [Soup.Text "$5"])).
  - reflexivity.
  - vm_compute. reflexivity.
  - repeat constructor. vm_compute. eexists. reflexivity.
  - vm_compute. reflexivity.
  - vm_compute. reflexivity.
  - left. reflexivity.
Defined.

(** The runs of the examples, evaluated. *)
Example run_over_three_pages :
  let w := extract_product_data (start shop [empty_url; example_url; div_url] []) in
  map map_to_list (product_data w.1)
    = [[("title", ""); ("price", "$5")];
       [("title", "Widget"); ("price", "$9.99")];
       [("title", "Widget"); ("price", "$2.00")]]
  /\ map fst (requests_sent w.1) = [empty_url; example_url; div_url]
  /\ network w.1 = 3
  /\ w.2 = Ok tt.
Proof. vm_compute. repeat split; reflexivity. Qed.

Example run_stopped_by_a_missing_heading :
  let w := extract_product_data (start shop [example_url; bare_url; div_url] []) in
  map map_to_list (product_data w.1) = [[("title", "Widget"); ("price", "$9.99")]]
  /\ map fst (requests_sent w.1) = [example_url; bare_url]
  /\ w.2 = Raise AttributeError.
Proof. vm_compute. repeat split; reflexivity. Qed.

Example run_stopped_by_the_network :
  let w := extract_product_data (start shop [example_url; "http://example.test/gone"] []) in
  map map_to_list (product_data w.1) = [[("title", "Widget"); ("price", "$9.99")]]
  /\ w.2 = Raise (RequestException "connection refused").
Proof. vm_compute. repeat split; reflexivity. Qed.

(** ** Further properties of the routine *)

Section Further.
Context {L : Libs}.

Implicit Types (w : world) (hs : gmap string string) (urls : list string).
Implicit Types (answers : list (result string)) (pages : list string).

(** A page has a record exactly when both lookups find an element. *)
Lemma page_record_is_Some body :
  is_Some (page_record body) <->
  exists heading tagged,
    Soup.find (Some "h1") ∅ (html_parser body) = Some heading
    /\ Soup.find (Some "span") itemprop_price (html_parser body) = Some tagged.
Proof.
  unfold page_record.
  destruct (Soup.find (Some "h1") ∅ _) as [heading |],
           (Soup.find (Some "span") itemprop_price _) as [tagged |]; split.
  all: intros H; try (by destruct H as [? [=]]); try (by destruct H as (? & ? & [=] & [=])).
  all: eauto.
Qed.

(** Responses after a raising loop do not matter. *)
Lemma raising_answers_then answers later e :
  outcome_of answers = Raise e ->
  records_of (answers ++ later) = records_of answers
  /\ outcome_of (answers ++ later) = Raise e
  /\ issued (answers ++ later) = issued answers.
Proof.
  induction answers as [| [body | e'] answers IH]; simpl; [done | |].
  - destruct (page_record body) as [record |]; [| done].
    intros Hraise. destruct (IH Hraise) as (-> & -> & ->). done.
  - done.
Qed.

Lemma net_after_app hs urls1 urls2 (n : net) :
  net_after hs (urls1 ++ urls2) n = net_after hs urls2 (net_after hs urls1 n).
Proof. revert n. induction urls1 as [| url urls1 IH]; intros n; simpl; [done | apply IH]. Qed.

Lemma issued_bound answers : issued answers <= length answers.
Proof.
  induction answers as [| [body | e] answers IH]; simpl; [lia | | lia].
  destruct (page_record body); simpl; lia.
Qed.

Lemma record_of_dom title price :
  dom (record_of title price) = ({[ "title"; "price" ]} : gset string).
Proof. unfold record_of. rewrite !dom_insert_L, dom_empty_L. set_solver. Qed.

Lemma records_of_dom answers :
  Forall (fun record : gmap string string => dom record = {[ "title"; "price" ]})
         (records_of answers).
Proof.
  induction answers as [| [body | e] answers IH]; simpl; try by constructor.
  destruct (page_record body) as [record |] eqn:Hrecord; [| by constructor].
  constructor; [| exact IH].
  unfold page_record in Hrecord.
  destruct (Soup.find (Some "h1") ∅ _) as [heading |]; [| done].
  destruct (Soup.find (Some "span") itemprop_price _) as [tagged |]; [| done].
  injection Hrecord as <-. apply record_of_dom.
Qed.

(** X1: the [title] of every record a run appends is the text of the first
    [h1] element, in document order, of the page fetched for the record's
    URL. *)
Theorem title_is_first_h1 w i record :
  product_data (extract_product_data w).1 !! (length (product_data w) + i) = Some record ->
  exists url body earlier element later,
    product_urls w !! i = Some url
    /\ responses (headers w) (product_urls w) (network w) !! i = Some (Ok body)
    /\ Soup.descendants (html_parser body) = earlier ++ element :: later
    /\ Forall (fun n => Soup.matches (Some "h1") ∅ n = false) earlier
    /\ (exists attrs children, element = Soup.Tag "h1" attrs children)
    /\ record !! "title" = Some (Soup.text element).
Proof.
  rewrite extract_product_data_run. simpl.
  rewrite lookup_app_r by lia.
  replace (length (product_data w) + i - length (product_data w)) with i by lia.
  intros Hrecord.
  destruct (records_of_lookup _ _ _ Hrecord) as (body & Hbody & Hpage).
  destruct (lookup_lt_is_Some_2 (product_urls w) i) as [url Hurl].
  { rewrite <- (responses_length (headers w) _ (network w)). by eapply lookup_lt_Some. }
  unfold page_record in Hpage.
  destruct (Soup.find (Some "h1") ∅ _) as [heading |] eqn:Hheading; [| done].
  destruct (Soup.find (Some "span") itemprop_price _) as [tagged |]; [| done].
  injection Hpage as <-.
  rewrite find_first_match in Hheading.
  apply first_match_Some in Hheading as (earlier & later & Hdoc & Hearlier & Hh1).
  apply matches_h1 in Hh1.
  exists url, body, earlier, heading, later.
  repeat split; try done; unfold record_of; by simplify_map_eq.
Qed.

(** X2: the keys of every record a run appends are exactly [title] and
    [price]. *)
Theorem appended_records_have_two_keys w :
  Forall (fun record : gmap string string => dom record = {[ "title"; "price" ]})
    (drop (length (product_data w)) (product_data (extract_product_data w).1)).
Proof.
  rewrite extract_product_data_run. simpl.
  rewrite drop_app_length. apply records_of_dom.
Qed.

(** X3: when the iterations before some URL succeed and the HTTP client
    raises for that URL, the run raises the client's exception: the request
    for that URL is the last one sent, the records of the earlier pages stay
    appended, and nothing is appended for that URL or the URLs after it. *)
Theorem request_failure_propagates w before url after pages e :
  product_urls w = before ++ url :: after ->
  responses (headers w) (before ++ [url]) (network w) = (Ok <$> pages) ++ [Raise e] ->
  Forall (fun b => is_Some (page_record b)) pages ->
  exists records,
    (extract_product_data w).2 = Raise e
    /\ product_data (extract_product_data w).1 = product_data w ++ records
    /\ Forall2 (fun body record => page_record body = Some record) pages records
    /\ length records = length before
    /\ requests_sent (extract_product_data w).1
       = requests_sent w ++ gets (headers w) (before ++ [url]).
Proof.
  intros Hurls Hanswers Hgood.
  rewrite responses_app in Hanswers. simpl in Hanswers.
  apply app_inj_2 in Hanswers as [Hbefore [= Hraise]]; [| done].
  destruct (run_after_good_pages w before (url :: after) pages
              (Raise e :: responses (headers w) after
                 (requests_get url (headers w)
                    (net_after (headers w) before (network w))).1))
    as (records & Hrecords & Hlen & Hdata & Hsent & Hout); [done | done | done | |].
  { simpl. by rewrite Hraise. }
  simpl in Hdata, Hsent, Hout.
  exists records. rewrite app_nil_r in Hdata. done.
Qed.

(** X4: a page with a heading and with price-tagged elements, none of which
    is a [span], makes the run raise [AttributeError] in the iteration of its
    URL, with nothing appended for that URL or the URLs after it. *)
Theorem price_on_other_tags_raises w before url after pages body heading other :
  product_urls w = before ++ url :: after ->
  responses (headers w) (before ++ [url]) (network w) = (Ok <$> pages) ++ [Ok body] ->
  Forall (fun b => is_Some (page_record b)) pages ->
  Soup.find (Some "h1") ∅ (html_parser body) = Some heading ->
  Soup.find None itemprop_price (html_parser body) = Some other ->
  Soup.find (Some "span") itemprop_price (html_parser body) = None ->
  exists records,
    (extract_product_data w).2 = Raise AttributeError
    /\ product_data (extract_product_data w).1 = product_data w ++ records
    /\ length records = length before
    /\ requests_sent (extract_product_data w).1
       = requests_sent w ++ gets (headers w) (before ++ [url]).
Proof.
  intros Hurls Hanswers Hgood _ _ Hspan.
  assert (Hnone : page_record body = None).
  { apply page_record_None. by right. }
  rewrite responses_app in Hanswers. simpl in Hanswers.
  apply app_inj_2 in Hanswers as [Hbefore [= Hbody]]; [| done].
  destruct (run_after_good_pages w before (url :: after) pages
              (Ok body :: responses (headers w) after
                 (requests_get url (headers w)
                    (net_after (headers w) before (network w))).1))
    as (records & _ & Hlen & Hdata & Hsent & Hout); [done | done | done | |].
  { simpl. by rewrite Hbody. }
  simpl in Hdata, Hsent, Hout. rewrite Hnone in Hdata, Hsent, Hout.
  exists records. rewrite app_nil_r in Hdata. done.
Qed.

(** X5: a run that returns normally was answered, for every URL of
    [product_urls], with a page that has an [h1] and a price-tagged [span];
    it sent one request per URL and appended one record per URL. *)
Theorem normal_return_means_all_pages_good w :
  (extract_product_data w).2 = Ok tt ->
  exists pages,
    responses (headers w) (product_urls w) (network w) = Ok <$> pages
    /\ Forall (fun body =>
                 exists heading tagged,
                   Soup.find (Some "h1") ∅ (html_parser body) = Some heading
                   /\ Soup.find (Some "span") itemprop_price (html_parser body)
                      = Some tagged) pages
    /\ length (product_data (extract_product_data w).1)
       = length (product_data w) + length (product_urls w)
    /\ requests_sent (extract_product_data w).1
       = requests_sent w ++ gets (headers w) (product_urls w).
Proof.
  rewrite extract_product_data_run. simpl. intros Hok.
  destruct (outcome_Ok_pages _ Hok) as (pages & Hpages & Hgood & Hlen).
  exists pages. split; [done |]. split.
  { eapply Forall_impl; [exact Hgood |]. intros body. apply page_record_is_Some. }
  split.
  - by rewrite length_app, Hlen, responses_length.
  - rewrite (outcome_Ok_issued _ Hok), responses_length, firstn_all. done.
Qed.


(** X7: the routine never reads the accumulator or the earlier requests: from
    worlds that differ in them only, the runs end the same way, append the
    same records, send the same requests and leave the same network. *)
Theorem accumulator_is_not_read w data sent :
  (extract_product_data (World (product_urls w) (headers w) data (network w) sent)).2
    = (extract_product_data w).2
  /\ network (extract_product_data
               (World (product_urls w) (headers w) data (network w) sent)).1
     = network (extract_product_data w).1
  /\ exists records requests,
       product_data (extract_product_data w).1 = product_data w ++ records
       /\ product_data (extract_product_data
                          (World (product_urls w) (headers w) data (network w) sent)).1
          = data ++ records
       /\ requests_sent (extract_product_data w).1 = requests_sent w ++ requests
       /\ requests_sent (extract_product_data
                           (World (product_urls w) (headers w) data (network w) sent)).1
          = sent ++ requests.
Proof.
  rewrite !extract_product_data_run. simpl.
  split; [done |]. split; [done |]. eexists _, _. done.
Qed.

(** X8: a run over two batches of URLs in one list does what a run over the
    first batch followed, when that one returns normally, by a run over the
    second batch does. *)
Theorem batches_compose urls1 urls2 hs data (n : net) sent :
  (extract_product_data (World urls1 hs data n sent)).2 = Ok tt ->
  extract_product_data (World (urls1 ++ urls2) hs data n sent) =
    ((World (urls1 ++ urls2) hs
        (product_data
           (extract_product_data
              (World urls2 hs
                 (product_data (extract_product_data (World urls1 hs data n sent)).1)
                 (network (extract_product_data (World urls1 hs data n sent)).1)
                 (requests_sent (extract_product_data (World urls1 hs data n sent)).1))).1)
        (network
           (extract_product_data
              (World urls2 hs
                 (product_data (extract_product_data (World urls1 hs data n sent)).1)
                 (network (extract_product_data (World urls1 hs data n sent)).1)
                 (requests_sent (extract_product_data (World urls1 hs data n sent)).1))).1)
        (requests_sent
           (extract_product_data
              (World urls2 hs
                 (product_data (extract_product_data (World urls1 hs data n sent)).1)
                 (network (extract_product_data (World urls1 hs data n sent)).1)
                 (requests_sent (extract_product_data (World urls1 hs data n sent)).1))).1)),
     (extract_product_data
        (World urls2 hs
           (product_data (extract_product_data (World urls1 hs data n sent)).1)
           (network (extract_product_data (World urls1 hs data n sent)).1)
           (requests_sent (extract_product_data (World urls1 hs data n sent)).1))).2).
Proof.
  rewrite !extract_product_data_run. simpl. intros Hok.
  destruct (outcome_Ok_pages _ Hok) as (pages & Hpages & Hgood & _).
  destruct (good_pages_records pages Hgood) as [records Hrecords].
  pose proof (outcome_Ok_issued _ Hok) as Hissued.
  rewrite responses_length in Hissued.
  rewrite Hissued, firstn_all, responses_app, Hpages.
  destruct (good_pages_then pages records
              (responses hs urls2 (net_after hs urls1 n)) Hrecords) as (-> & -> & ->).
  destruct (good_pages_then pages records [] Hrecords) as (Hr & _ & _).
  rewrite app_nil_r in Hr. rewrite Hr, app_nil_r.
  assert (Hlen : length pages = length urls1).
  { rewrite <- (responses_length hs urls1 n), Hpages. by rewrite length_fmap. }
  rewrite Hlen, take_app_add', net_after_app by done.
  unfold gets. by rewrite map_app, <- !app_assoc.
Qed.

(** X9: URLs listed after the one at which a run raises have no effect: the
    run over the longer list ends in the same state, [product_urls] apart,
    with the same exception. *)
Theorem failure_ignores_later_urls urls1 urls2 hs data (n : net) sent e :
  (extract_product_data (World urls1 hs data n sent)).2 = Raise e ->
  extract_product_data (World (urls1 ++ urls2) hs data n sent) =
    (World (urls1 ++ urls2) hs
       (product_data (extract_product_data (World urls1 hs data n sent)).1)
       (network (extract_product_data (World urls1 hs data n sent)).1)
       (requests_sent (extract_product_data (World urls1 hs data n sent)).1),
     Raise e).
Proof.
  rewrite !extract_product_data_run. simpl. intros Hraise.
  rewrite responses_app.
  destruct (raising_answers_then _ (responses hs urls2 (net_after hs urls1 n)) _ Hraise)
    as (-> & -> & ->).
  rewrite take_app_le; [done |].
  rewrite <- (responses_length hs urls1 n). apply issued_bound.
Qed.

(** X10: a run returns normally and leaves the world exactly as it was if
    and only if [product_urls] is empty; over the empty list no request goes
    out, and over any other list the request for the first URL goes out, with
    [headers], whatever happens afterwards. *)
Theorem only_the_empty_list_changes_nothing w :
  (extract_product_data w = (w, Ok tt) <-> product_urls w = [])
  /\ match product_urls w with
     | [] => requests_sent (extract_product_data w).1 = requests_sent w
     | url :: _ =>
         exists more,
           requests_sent (extract_product_data w).1
           = requests_sent w ++ (url, headers w) :: more
     end.
Proof.
  rewrite extract_product_data_run. simpl. split; [split |].
  - destruct (product_urls w) as [| url urls] eqn:Hurls; [done |].
    intros [Hworld _]%pair_equal_spec. exfalso.
    apply (f_equal requests_sent) in Hworld. simpl in Hworld.
    apply (f_equal length) in Hworld. rewrite length_app in Hworld.
    destruct (requests_get url (headers w) (network w)).2 as [body | e];
      [destruct (page_record body) |]; simpl in Hworld; lia.
  - intros Hurls. rewrite Hurls. simpl. unfold gets. simpl.
    rewrite !app_nil_r, <- Hurls. by destruct w.
  - destruct (product_urls w) as [| url urls]; simpl.
    + unfold gets. simpl. by rewrite app_nil_r.
    + destruct (requests_get url (headers w) (network w)).2 as [body | e];
        [destruct (page_record body) |]; simpl; eauto.
Qed.

End Further.

(** ** The further properties at concrete pages *)

(** The title of the second record of a run over two pages of [outlet]. *)
Lemma title_is_first_h1_example :
  exists url body earlier element later,
    [example_url; empty_url] !! 1 = Some url
    /\ responses (L := canned outlet) test_headers [example_url; empty_url] 0 !! 1
       = Some (Ok body)
    /\ Soup.descendants (MiniHtml.parse body) = earlier ++ element :: later
    /\ Forall (fun n => Soup.matches (Some "h1") ∅ n = false) earlier
    /\ (exists attrs children, element = Soup.Tag "h1" attrs children)
    /\ record_of "" "$5" !! "title" = Some (Soup.text element).
Proof.
  apply (title_is_first_h1 (L := canned outlet)
           (start outlet [example_url; empty_url] [old_record]) 1 (record_of "" "$5")).
  vm_compute. reflexivity.
Defined.

(** A run stopped by the HTTP client at its second URL. *)
Lemma request_failure_propagates_example :
  exists records,
    (extract_product_data (start outlet [example_url; gone_url; empty_url] [])).2
      = Raise (RequestException "connection refused")
    /\ product_data (extract_product_data (start outlet [example_url; gone_url; empty_url] [])).1
       = [] ++ records
    /\ Forall2 (fun body record => page_record (L := canned outlet) body = Some record)
               [widget_body] records
    /\ length records = length [example_url]
    /\ requests_sent (extract_product_data (start outlet [example_url; gone_url; empty_url] [])).1
       = [] ++ gets test_headers ([example_url] ++ [gone_url]).
Proof.
  apply (request_failure_propagates (L := canned outlet)
           (start outlet [example_url; gone_url; empty_url] [])
           [example_url] gone_url [empty_url] [widget_body]
           (RequestException "connection refused")).
  - reflexivity.
  - vm_compute. reflexivity.
  - repeat constructor. vm_compute. eexists. reflexivity.
Defined.

(** A run stopped by a page whose price is on a [div]. *)
Lemma price_on_other_tags_raises_example :
  exists records,
    (extract_product_data (start outlet [example_url; div_only_url; empty_url] [])).2
      = Raise AttributeError
    /\ product_data
         (extract_product_data (start outlet [example_url; div_only_url; empty_url] [])).1
       = [] ++ records
    /\ length records = length [example_url]
    /\ requests_sent
         (extract_product_data (start outlet [example_url; div_only_url; empty_url] [])).1
       = [] ++ gets test_headers ([example_url] ++ [div_only_url]).
Proof.
  apply (price_on_other_tags_raises (L := canned outlet)
           (start outlet [example_url; div_only_url; empty_url] [])
           [example_url] div_only_url [empty_url] [widget_body] div_only_body
           (Soup.Tag "h1" ∅ [Soup.Text "Lamp"])
           (Soup.Tag "div" itemprop_price [Soup.Text "$7.00"])).
  - reflexivity.
  - vm_compute. reflexivity.
  - repeat constructor. vm_compute. eexists. reflexivity.
  - vm_compute. reflexivity.
  - vm_compute. reflexivity.
  - vm_compute. reflexivity.
Defined.

(** A run over two good pages returns normally. *)
Lemma normal_return_means_all_pages_good_example :
  exists pages,
    responses (L := canned outlet) test_headers [example_url; empty_url] 0 = Ok <$> pages
    /\ Forall (fun body =>
                 exists heading tagged,
                   Soup.find (Some "h1") ∅ (MiniHtml.parse body) = Some heading
                   /\ Soup.find (Some "span") itemprop_price (MiniHtml.parse body)
                      = Some tagged) pages
    /\ length (product_data
                 (extract_product_data (start outlet [example_url; empty_url] [old_record])).1)
       = length [old_record] + length [example_url; empty_url]
    /\ requests_sent
         (extract_product_data (start outlet [example_url; empty_url] [old_record])).1
       = [] ++ gets test_headers [example_url; empty_url].
Proof.
  apply (normal_return_means_all_pages_good (L := canned outlet)
           (start outlet [example_url; empty_url] [old_record])).
  vm_compute. reflexivity.
Defined.


(** Two batches: one good page, then a good page and a bad one. *)
Lemma batches_compose_example :
  extract_product_data
    (World (L := canned outlet) ([example_url] ++ [empty_url; div_only_url])
       test_headers [] 0 [])
  = (World (L := canned outlet) ([example_url] ++ [empty_url; div_only_url])
       test_headers [record_of "Widget" "$9.99"; record_of "" "$5"] 3
       (gets test_headers [example_url; empty_url; div_only_url]),
     Raise AttributeError).
Proof.
  rewrite (batches_compose (L := canned outlet) [example_url] [empty_url; div_only_url]
             test_headers [] 0 []).
  - vm_compute. reflexivity.
  - vm_compute. reflexivity.
Defined.

(** A failing batch followed by more URLs. *)
Lemma failure_ignores_later_urls_example :
  extract_product_data
    (World (L := canned outlet) ([example_url; gone_url] ++ [empty_url])
       test_headers [old_record] 0 [])
  = (World (L := canned outlet) ([example_url; gone_url] ++ [empty_url]) test_headers
       (product_data
          (extract_product_data
             (World (L := canned outlet) [example_url; gone_url]
                test_headers [old_record] 0 [])).1)
       (network
          (extract_product_data
             (World (L := canned outlet) [example_url; gone_url]
                test_headers [old_record] 0 [])).1)
       (requests_sent
          (extract_product_data
             (World (L := canned outlet) [example_url; gone_url]
                test_headers [old_record] 0 [])).1),
     Raise (RequestException "connection refused")).
Proof.
  apply (failure_ignores_later_urls (L := canned outlet) [example_url; gone_url]
           [empty_url] test_headers [old_record] 0 []
           (RequestException "connection refused")).
  vm_compute. reflexivity.
Defined.
